(** * check-error.js: a headless-browser probe for runtime errors of a sketch

    Shallow embedding of [src/check-error.js].  The script is one
    asynchronous routine, [evaluateP5Sketch], and a command-line entry.
    Everything outside the script (the file system, [path.resolve], the
    browser driven through puppeteer, the page under test) is an oracle, the
    record [World]; every theorem quantifies over all worlds.

    The routine is written in a small state-and-exception monad [M]: the
    state holds the routine's local variables ([browser], [errors],
    [consoleErrors]), the listeners attached to the page and the trace of
    side effects; a completion is normal or a thrown error, and the state
    survives a throw (the trace written before a failure is kept, which a
    state transformer over an error monad would lose).  An [await] is the
    only place where the page's events reach the listeners. *)

From Stdlib Require Import String Ascii List Bool Arith ZArith Lia DecimalString.
Import ListNotations.
Local Open Scope string_scope.
Local Open Scope list_scope.

(** ** JavaScript values the script handles *)

(** An [Error] object, as far as the script reads it: [message] and [stack]
    ([None] is an undefined [stack]). *)
Record JsError := mkJsError {
  err_message : string;
  err_stack : option string
}.

(** The argument of the ['console'] event: [msg.type()] and [msg.text()]. *)
Record ConsoleMessage := mkConsoleMessage {
  msg_type : string;
  msg_text : string
}.

(** What the page can emit: ['pageerror'] with an error, ['console'] with a
    message. *)
Inductive PageEvent :=
| EvPageError (err : JsError)
| EvConsole (msg : ConsoleMessage).

(** The object literals pushed on the buffers and returned in
    [result.errors], a union tagged by its [type] field:
    [{ type: 'pageerror', message, stack }],
    [{ type: 'console.error', message }],
    [{ type: 'puppeteer_error', message, stack }]. *)
Inductive ErrorEntry :=
| pageerror (message : string) (stack : option string)
| console_error_entry (message : string)
| puppeteer_error (message : string) (stack : option string).

Definition entry_type (e : ErrorEntry) : string :=
  match e with
  | pageerror _ _ => "pageerror"
  | console_error_entry _ => "console.error"
  | puppeteer_error _ _ => "puppeteer_error"
  end.

(** The object the routine returns; [r_errors = None] is an object without
    an [errors] property. *)
Record Result := mkResult {
  success : bool;
  r_message : string;
  r_errors : option (list ErrorEntry)
}.

(** A settled promise. *)
Inductive Settled (A : Type) :=
| Fulfilled (a : A)
| Rejected (e : JsError).
Arguments Fulfilled {A} a.
Arguments Rejected {A} e.

Inductive Browser := BrowserHandle.
Inductive Page := PageHandle.

(** The two closures given to [page.on] (source lines 29 and 35). *)
Inductive Listener :=
| pageerror_listener
| console_listener.

(** ** Side effects *)

Inductive LogArg :=
| LStr (s : string)
| LErr (e : JsError)
| LJson (r : Result).      (* JSON.stringify(result, null, 2) *)

Inductive Effect :=
| console_error (args : list LogArg)
| console_log (args : list LogArg)
| stderr_write (s : string)
| puppeteer_launch (headless : bool) (args : list string)
| browser_newPage
| page_on (event : string) (l : Listener)
| page_goto (url : string) (waitUntil : string) (timeout : Z)
| setTimeout (ms : Z)
| browser_close
| process_exit (code : Z).

(** ** The environment *)

(** What the outside answers during one run.  A promise that is awaited
    comes with the page events delivered while the routine is suspended on
    it; events emitted while the page is still being created find no
    listener.  The launch has no events: there is no page yet. *)
Record World := mkWorld {
  fs_existsSync : string -> bool;
  path_resolve : string -> string;
  launch : Settled Browser;
  newPage : list PageEvent * Settled Page;
  goto : string -> Z -> list PageEvent * Settled unit;
  timer_events : Z -> list PageEvent;
  close : list PageEvent * Settled unit
}.

(** ** State and monad *)

Record State := mkState {
  browser : option Browser;                (* let browser; *)
  errors : list ErrorEntry;                (* const errors = []; *)
  consoleErrors : list ErrorEntry;         (* const consoleErrors = []; *)
  listeners : list (string * Listener);    (* the page's event emitter *)
  trace : list Effect
}.

Inductive Completion (A : Type) :=
| Normal (a : A)
| Throw (e : JsError).
Arguments Normal {A} a.
Arguments Throw {A} e.

Definition M (A : Type) : Type := State -> Completion A * State.

Definition ret {A} (a : A) : M A := fun s => (Normal a, s).

Definition bind {A B} (m : M A) (k : A -> M B) : M B :=
  fun s =>
    match m s with
    | (Normal a, s') => k a s'
    | (Throw e, s') => (Throw e, s')
    end.

Definition throw {A} (e : JsError) : M A := fun s => (Throw e, s).

Declare Scope js_scope.
Delimit Scope js_scope with js.
Notation "x <- m ;; k" := (bind m (fun x => k))
  (at level 100, m at next level, right associativity) : js_scope.
Notation "m ;; k" := (bind m (fun _ => k))
  (at level 100, right associativity) : js_scope.
Local Open Scope js_scope.

Definition get : M State := fun s => (Normal s, s).

Definition modify (f : State -> State) : M unit := fun s => (Normal tt, f s).

Definition emit (e : Effect) : M unit :=
  modify (fun s => mkState (browser s) (errors s) (consoleErrors s)
                           (listeners s) (trace s ++ [e])).

Definition set_browser (b : Browser) : M unit :=
  modify (fun s => mkState (Some b) (errors s) (consoleErrors s)
                           (listeners s) (trace s)).

Definition errors_push (e : ErrorEntry) : M unit :=
  modify (fun s => mkState (browser s) (errors s ++ [e]) (consoleErrors s)
                           (listeners s) (trace s)).

Definition consoleErrors_push (e : ErrorEntry) : M unit :=
  modify (fun s => mkState (browser s) (errors s) (consoleErrors s ++ [e])
                           (listeners s) (trace s)).

(** [page.on(event, l)]. *)
Definition on (event : string) (l : Listener) : M unit :=
  emit (page_on event l) ;;
  modify (fun s => mkState (browser s) (errors s) (consoleErrors s)
                           (listeners s ++ [(event, l)]) (trace s)).

(** [try { body } catch (error) { handler } finally { fin }], where [body]
    and [handler] end in a [return]: the completion of [body], or of
    [handler] when [body] throws, is kept unless [fin] throws. *)
Definition try_catch_finally {A} (body : M A) (handler : JsError -> M A)
    (fin : M unit) : M A :=
  fun s =>
    let '(c, s1) := body s in
    let '(c', s2) := match c with
                     | Normal a => (Normal a, s1)
                     | Throw e => handler e s1
                     end in
    match fin s2 with
    | (Normal _, s3) => (c', s3)
    | (Throw e, s3) => (Throw e, s3)
    end.

(** ** String helpers *)

(** [text.includes(needle)]. *)
Fixpoint includes (text needle : string) : bool :=
  if prefix needle text then true
  else match text with
       | EmptyString => false
       | String _ rest => includes rest needle
       end.

(** [`${n}`] for a length. *)
Definition string_of_nat (n : nat) : string :=
  NilEmpty.string_of_uint (Nat.to_uint n).

Definition newline : string := String (ascii_of_nat 10) EmptyString.

(** ** The listeners *)

(** Source lines 29-32. *)
Definition on_pageerror (err : JsError) : M unit :=
  emit (console_error [LStr "Page error (uncaught exception):";
                       LStr (err_message err)]) ;;
  errors_push (pageerror (err_message err) (err_stack err)).

(** Source lines 35-48. *)
Definition on_console (msg : ConsoleMessage) : M unit :=
  let text := msg_text msg in
  if msg_type msg =? "error" then
    if negb (includes text "Failed to load resource") then
      emit (stderr_write ("Console error: " ++ text ++ newline)) ;;
      consoleErrors_push (console_error_entry text)
    else ret tt
  else if msg_type msg =? "warning" then
    emit (stderr_write ("Console warning: " ++ text ++ newline))
  else if msg_type msg =? "log" then
    emit (stderr_write ("Console log: " ++ text ++ newline))
  else ret tt.

Definition event_name (ev : PageEvent) : string :=
  match ev with
  | EvPageError _ => "pageerror"
  | EvConsole _ => "console"
  end.

Definition call_listener (l : Listener) (ev : PageEvent) : M unit :=
  match l, ev with
  | pageerror_listener, EvPageError err => on_pageerror err
  | console_listener, EvConsole msg => on_console msg
  | _, _ => ret tt
  end.

(** The emitter calls, in registration order, the listeners registered
    under the event's name; an event nobody listens to is lost. *)
Fixpoint call_listeners (ls : list (string * Listener)) (ev : PageEvent)
    : M unit :=
  match ls with
  | [] => ret tt
  | (name, l) :: ls' =>
      (if name =? event_name ev then call_listener l ev else ret tt) ;;
      call_listeners ls' ev
  end.

Definition deliver (ev : PageEvent) : M unit :=
  s <- get ;; call_listeners (listeners s) ev.

Fixpoint deliver_all (evs : list PageEvent) : M unit :=
  match evs with
  | [] => ret tt
  | ev :: evs' => deliver ev ;; deliver_all evs'
  end.

(** [await p]: the routine is suspended, the events that arrive meanwhile
    are dispatched, then the promise's outcome is resumed with. *)
Definition await {A} (p : list PageEvent * Settled A) : M A :=
  deliver_all (fst p) ;;
  match snd p with
  | Fulfilled a => ret a
  | Rejected e => throw e
  end.

(** ** The evaluation routine *)

Section Evaluator.

Variable w : World.

Definition navigation_timeout : Z := 30000.
Definition observation_window : Z := 5000.

(** The [try] block, source lines 21-74. *)
Definition try_block (fileUrl : string) : M Result :=
  b <- (emit (puppeteer_launch true
                ["--no-sandbox"; "--disable-setuid-sandbox"]) ;;
        await ([], launch w)) ;;
  set_browser b ;;
  _page <- (emit browser_newPage ;; await (newPage w)) ;;
  on "pageerror" pageerror_listener ;;
  on "console" console_listener ;;
  emit (page_goto fileUrl "domcontentloaded" navigation_timeout) ;;
  await (goto w fileUrl navigation_timeout) ;;
  emit (setTimeout observation_window) ;;
  await (timer_events w observation_window, Fulfilled tt) ;;
  s <- get ;;
  let allErrors := errors s ++ consoleErrors s in
  if (0 <? List.length allErrors)%nat then
    emit (console_log [LStr ("Evaluation complete: Found "
                             ++ string_of_nat (List.length allErrors)
                             ++ " runtime errors.")]) ;;
    ret (mkResult false "Runtime errors detected." (Some allErrors))
  else
    emit (console_log
            [LStr "Evaluation complete: No runtime errors detected."]) ;;
    ret (mkResult true "No runtime errors detected." None).

(** The [catch] block, source lines 76-83. *)
Definition catch_block (error : JsError) : M Result :=
  emit (console_error [LStr "Puppeteer or navigation error:"; LErr error]) ;;
  ret (mkResult false
         ("Puppeteer or navigation error: " ++ err_message error)
         (Some [puppeteer_error (err_message error) (err_stack error)])).

(** The [finally] block, source lines 84-89. *)
Definition finally_block : M unit :=
  s <- get ;;
  match browser s with
  | Some _ => emit browser_close ;; await (close w)
  | None => ret tt
  end.

Definition evaluateP5Sketch (htmlFilePath : string) : M Result :=
  if negb (fs_existsSync w htmlFilePath) then
    emit (console_error
            [LStr ("Error: HTML file not found at " ++ htmlFilePath)]) ;;
    ret (mkResult false ("HTML file not found: " ++ htmlFilePath) None)
  else
    let fileUrl := ("file://" ++ path_resolve w htmlFilePath)%string in
    emit (console_log [LStr ("Evaluating P5.js sketch from: " ++ fileUrl)]) ;;
    try_catch_finally (try_block fileUrl) catch_block finally_block.

(** The state a call starts from: fresh locals, nothing written yet. *)
Definition initial : State := mkState None [] [] [] [].

(** ** The command line *)

(** [!htmlFilePath] for [process.argv[2]]: undefined or the empty string. *)
Definition falsy (arg : option string) : bool :=
  match arg with
  | None => true
  | Some EmptyString => true
  | Some _ => false
  end.

(** Source lines 93-115: the effects of the whole process, ended by the
    [process.exit] that stops it, and the exit code. *)
Definition main (argv2 : option string) : list Effect * Z :=
  match argv2 with
  | Some htmlFilePath =>
      if falsy argv2 then
        ([console_error
            [LStr "Usage: node index.js <path/to/your/p5_sketch.html>"];
          process_exit 1], 1%Z)
      else
        match evaluateP5Sketch htmlFilePath initial with
        | (Normal result, s) =>
            let code := if negb (success result) then 1%Z else 0%Z in
            (trace s
               ++ [console_log [LStr (newline
                                      ++ "--- Final Evaluation Result ---")];
                   console_log [LJson result];
                   process_exit code], code)
        | (Throw err, s) =>
            (trace s
               ++ [console_error [LStr "Unhandled error during evaluation:";
                                  LErr err];
                   process_exit 1], 1%Z)
        end
  | None =>
      ([console_error
          [LStr "Usage: node index.js <path/to/your/p5_sketch.html>"];
        process_exit 1], 1%Z)
  end.

End Evaluator.

(** ** What a run is expected to collect

    Pure descriptions of the two buffers and of the diagnostic output, as
    functions of the events delivered; the lemmas below show that the
    listeners compute exactly these. *)

Definition benign_marker : string := "Failed to load resource".

(** [text] contains [needle] as a substring. *)
Definition contains (text needle : string) : Prop :=
  exists l r : string, text = (l ++ needle ++ r)%string.

(** A console message that counts as an error: severity "error" and no
    benign marker in its text. *)
Definition reportable (msg : ConsoleMessage) : bool :=
  (msg_type msg =? "error") && negb (includes (msg_text msg) benign_marker).

Definition page_entry (ev : PageEvent) : list ErrorEntry :=
  match ev with
  | EvPageError err => [pageerror (err_message err) (err_stack err)]
  | EvConsole _ => []
  end.

Definition console_entry (ev : PageEvent) : list ErrorEntry :=
  match ev with
  | EvPageError _ => []
  | EvConsole msg =>
      if reportable msg then [console_error_entry (msg_text msg)] else []
  end.

Definition console_output (msg : ConsoleMessage) : list Effect :=
  if reportable msg then
    [stderr_write ("Console error: " ++ msg_text msg ++ newline)]
  else if msg_type msg =? "warning" then
    [stderr_write ("Console warning: " ++ msg_text msg ++ newline)]
  else if msg_type msg =? "log" then
    [stderr_write ("Console log: " ++ msg_text msg ++ newline)]
  else [].

Definition event_output (ev : PageEvent) : list Effect :=
  match ev with
  | EvPageError err =>
      [console_error [LStr "Page error (uncaught exception):";
                      LStr (err_message err)]]
  | EvConsole msg => console_output msg
  end.

Definition page_entries (evs : list PageEvent) : list ErrorEntry :=
  flat_map page_entry evs.

Definition console_entries (evs : list PageEvent) : list ErrorEntry :=
  flat_map console_entry evs.

Definition events_output (evs : list PageEvent) : list Effect :=
  flat_map event_output evs.

(** The state after the events [evs] have reached both listeners. *)
Definition observed (evs : list PageEvent) (s : State) : State :=
  mkState (browser s)
          (errors s ++ page_entries evs)
          (consoleErrors s ++ console_entries evs)
          (listeners s)
          (trace s ++ events_output evs).

Definition both_listeners : list (string * Listener) :=
  [("pageerror", pageerror_listener); ("console", console_listener)].

(** The first failure of session opening or navigation, if any. *)
Definition session_failure (w : World) (url : string) : option JsError :=
  match launch w with
  | Rejected e => Some e
  | Fulfilled _ =>
      match snd (newPage w) with
      | Rejected e => Some e
      | Fulfilled _ =>
          match snd (goto w url navigation_timeout) with
          | Rejected e => Some e
          | Fulfilled _ => None
          end
      end
  end.

Definition file_url (w : World) (htmlFilePath : string) : string :=
  ("file://" ++ path_resolve w htmlFilePath)%string.

(** The events of the observation window: those delivered while the
    navigation and the fixed delay are awaited. *)
Definition window_events (w : World) (url : string) : list PageEvent :=
  fst (goto w url navigation_timeout) ++ timer_events w observation_window.

(** Counting effects of one kind in a trace. *)
Definition is_launch (e : Effect) : bool :=
  match e with puppeteer_launch _ _ => true | _ => false end.
Definition is_close (e : Effect) : bool :=
  match e with browser_close => true | _ => false end.
Definition is_goto (e : Effect) : bool :=
  match e with page_goto _ _ _ => true | _ => false end.
Definition is_browser_op (e : Effect) : bool :=
  match e with
  | puppeteer_launch _ _ | browser_newPage | page_on _ _
  | page_goto _ _ _ | browser_close => true
  | _ => false
  end.

Definition count (f : Effect -> bool) (tr : list Effect) : nat :=
  List.length (filter f tr).

(** ** Sample worlds *)

Definition boom : JsError := mkJsError "boom" (Some "Error: boom at <anonymous>").

Definition sample_events : list PageEvent :=
  [EvConsole (mkConsoleMessage "error" "first");
   EvPageError (mkJsError "x is not defined" (Some "ReferenceError"));
   EvConsole (mkConsoleMessage "error" "Failed to load resource: net::ERR");
   EvConsole (mkConsoleMessage "warning" "careful");
   EvPageError (mkJsError "Failed to load resource" None);
   EvConsole (mkConsoleMessage "log" "hello")].

Definition quiet_world : World :=
  mkWorld (fun _ => true) (fun p => ("/abs/" ++ p)%string)
          (Fulfilled BrowserHandle) ([], Fulfilled PageHandle)
          (fun _ _ => ([], Fulfilled tt)) (fun _ => []) ([], Fulfilled tt).

Definition noisy_world : World :=
  mkWorld (fun _ => true) (fun p => ("/abs/" ++ p)%string)
          (Fulfilled BrowserHandle) ([], Fulfilled PageHandle)
          (fun _ _ => ([EvConsole (mkConsoleMessage "error" "first")],
                       Fulfilled tt))
          (fun _ => tl sample_events) ([], Fulfilled tt).

Definition missing_world : World :=
  mkWorld (fun _ => false) (fun p => p)
          (Fulfilled BrowserHandle) ([], Fulfilled PageHandle)
          (fun _ _ => ([], Fulfilled tt)) (fun _ => []) ([], Fulfilled tt).

Definition launch_fail_world : World :=
  mkWorld (fun _ => true) (fun p => p)
          (Rejected boom) ([], Fulfilled PageHandle)
          (fun _ _ => ([], Fulfilled tt)) (fun _ => []) ([], Fulfilled tt).

Definition goto_fail_world : World :=
  mkWorld (fun _ => true) (fun p => p)
          (Fulfilled BrowserHandle) ([], Fulfilled PageHandle)
          (fun _ _ => ([EvPageError boom], Rejected boom)) (fun _ => [])
          ([], Fulfilled tt).

Definition close_fail_world : World :=
  mkWorld (fun _ => true) (fun p => p)
          (Fulfilled BrowserHandle) ([], Fulfilled PageHandle)
          (fun _ _ => ([], Fulfilled tt)) (fun _ => []) ([], Rejected boom).

(** The state after one more effect. *)
Definition after (e : Effect) (s : State) : State :=
  mkState (browser s) (errors s) (consoleErrors s) (listeners s)
          (trace s ++ [e]).

(** The pieces of a run once the file is found. *)
Definition found_trace (url : string) : list Effect :=
  [console_log [LStr ("Evaluating P5.js sketch from: " ++ url)];
   puppeteer_launch true ["--no-sandbox"; "--disable-setuid-sandbox"]].

Definition failure_log (e : JsError) : Effect :=
  console_error [LStr "Puppeteer or navigation error:"; LErr e].

Definition failure_result (e : JsError) : Result :=
  mkResult false ("Puppeteer or navigation error: " ++ err_message e)
           (Some [puppeteer_error (err_message e) (err_stack e)]).

Definition report (allErrors : list ErrorEntry) : Result :=
  match allErrors with
  | [] => mkResult true "No runtime errors detected." None
  | _ :: _ => mkResult false "Runtime errors detected." (Some allErrors)
  end.

Definition report_log (allErrors : list ErrorEntry) : Effect :=
  match allErrors with
  | [] => console_log [LStr "Evaluation complete: No runtime errors detected."]
  | _ :: _ =>
      console_log [LStr ("Evaluation complete: Found "
                         ++ string_of_nat (List.length allErrors)
                         ++ " runtime errors.")]
  end.

(** The state when navigation starts: a browser, empty buffers, both
    listeners attached. *)
Definition attached_state (b : Browser) (url : string) : State :=
  mkState (Some b) [] [] both_listeners
          (found_trace url
             ++ [browser_newPage;
                 page_on "pageerror" pageerror_listener;
                 page_on "console" console_listener;
                 page_goto url "domcontentloaded" navigation_timeout]).

(** The state when the buffers are read, after a navigation that
    succeeded. *)
Definition read_state (w : World) (b : Browser) (url : string) : State :=
  observed (timer_events w observation_window)
    (after (setTimeout observation_window)
       (observed (fst (goto w url navigation_timeout)) (attached_state b url))).

(** Leaving through [finally] with an open browser: the completion is
    kept unless [browser.close()] rejects. *)
Definition closing (w : World) (r : Result) : Completion Result :=
  match snd (close w) with
  | Fulfilled _ => Normal r
  | Rejected e => Throw e
  end.

(** The entries collected during the observation window, in the order the
    report lists them. *)
Definition collected (w : World) (url : string) : list ErrorEntry :=
  page_entries (window_events w url) ++ console_entries (window_events w url).

(** Every event the world delivers from the start of navigation on: during
    navigation, during the fixed delay when it is reached, and while the
    browser closes. *)
Definition delivered_from_navigation (w : World) (url : string)
    : list PageEvent :=
  fst (goto w url navigation_timeout)
    ++ match snd (goto w url navigation_timeout) with
       | Fulfilled _ => timer_events w observation_window
       | Rejected _ => []
       end
    ++ fst (close w).

Definition missing_result (htmlFilePath : string) : Result :=
  mkResult false ("HTML file not found: " ++ htmlFilePath) None.

(** How a call completes, read off the world. *)
Definition expected (w : World) (htmlFilePath : string) : Completion Result :=
  let url := file_url w htmlFilePath in
  if fs_existsSync w htmlFilePath then
    match launch w with
    | Rejected e => Normal (failure_result e)
    | Fulfilled _ =>
        match session_failure w url with
        | Some e => closing w (failure_result e)
        | None => closing w (report (collected w url))
        end
    end
  else Normal (missing_result htmlFilePath).

(** The state a call ends in, read off the world. *)
Definition final_state (w : World) (htmlFilePath : string) : State :=
  let url := file_url w htmlFilePath in
  if fs_existsSync w htmlFilePath then
    match launch w with
    | Rejected e => mkState None [] [] [] (found_trace url ++ [failure_log e])
    | Fulfilled b =>
        match snd (newPage w) with
        | Rejected e =>
            mkState (Some b) [] [] []
                    (found_trace url
                       ++ [browser_newPage; failure_log e; browser_close])
        | Fulfilled _ =>
            match snd (goto w url navigation_timeout) with
            | Rejected e =>
                observed (fst (close w))
                  (after browser_close
                     (after (failure_log e)
                        (observed (fst (goto w url navigation_timeout))
                                  (attached_state b url))))
            | Fulfilled _ =>
                observed (fst (close w))
                  (after browser_close
                     (after (report_log (collected w url))
                            (read_state w b url)))
            end
        end
    end
  else
    after (console_error
             [LStr ("Error: HTML file not found at " ++ htmlFilePath)])
          initial.

Definition is_fulfilled {A} (p : Settled A) : bool :=
  match p with Fulfilled _ => true | Rejected _ => false end.

(** Effects written by the two listeners. *)
Definition is_listener_output (e : Effect) : bool :=
  match e with
  | stderr_write _ => true
  | console_error (LStr s :: _) => s =? "Page error (uncaught exception):"
  | _ => false
  end.

(** "Exactly one browser session is opened and closed exactly once", read
    on the trace of a call. *)
Definition one_session_opened_and_closed (w : World) (htmlFilePath : string)
    : Prop :=
  let s := snd (evaluateP5Sketch w htmlFilePath initial) in
  count is_launch (trace s) = 1 /\ count is_close (trace s) = 1.

(** The registrations and the navigation, as they appear in a trace. *)
Definition attach_then_goto (url : string) : list Effect :=
  [page_on "pageerror" pageerror_listener;
   page_on "console" console_listener;
   page_goto url "domcontentloaded" 30000].

(** "A call that returns without a launch or navigation failure succeeds
    exactly when nothing was collected", read on the outcome of a call: the
    [catch] block did not run, and the buffers are empty. *)
Definition success_iff_nothing_collected_as_stated
    (w : World) (htmlFilePath : string) : Prop :=
  forall r s,
    evaluateP5Sketch w htmlFilePath initial = (Normal r, s) ->
    (forall e, ~ In (failure_log e) (trace s)) ->
    (success r = true <-> errors s ++ consoleErrors s = []).

(** ** Further vocabulary for traces, events and worlds *)

(** The same world with another outcome of [browser.close()]. *)
Definition with_close (w : World) (c : list PageEvent * Settled unit) : World :=
  mkWorld (fs_existsSync w) (path_resolve w) (launch w) (newPage w) (goto w)
          (timer_events w) c.

Definition is_setTimeout (e : Effect) : bool :=
  match e with setTimeout _ => true | _ => false end.
Definition is_exit (e : Effect) : bool :=
  match e with process_exit _ => true | _ => false end.
Definition is_json_log (e : Effect) : bool :=
  match e with console_log [LJson _] => true | _ => false end.

(** The call gets as far as the report: the file exists, the session opens
    and the navigation succeeds. *)
Definition reaches_report (w : World) (htmlFilePath : string) : bool :=
  fs_existsSync w htmlFilePath
  && match session_failure w (file_url w htmlFilePath) with
     | None => true
     | Some _ => false
     end.

Definition is_page_error_event (ev : PageEvent) : bool :=
  match ev with EvPageError _ => true | EvConsole _ => false end.
Definition is_reportable_event (ev : PageEvent) : bool :=
  match ev with EvPageError _ => false | EvConsole msg => reportable msg end.

(** What the command line does without a usable argument. *)
Definition usage_run : list Effect * Z :=
  ([console_error [LStr "Usage: node index.js <path/to/your/p5_sketch.html>"];
    process_exit 1], 1%Z).

(** A browser was launched by this process. *)
Definition launched (w : World) (argv2 : option string) : bool :=
  match argv2 with
  | Some p => negb (falsy argv2) && fs_existsSync w p && is_fulfilled (launch w)
  | None => false
  end.

Definition info_message : ConsoleMessage := mkConsoleMessage "info" "loaded".

(** Browser operations and timers: what the call does to the outside,
    apart from writing. *)
Definition is_operation (e : Effect) : bool :=
  is_browser_op e || is_setTimeout e.

(** * Properties *)

(** ** Substring test *)

Lemma prefix_iff (p s : string) :
  prefix p s = true <-> exists r, s = (p ++ r)%string.
Proof.
  revert s; induction p as [|a p IH]; intros [|b s]; simpl.
  - split; [intros _; exists ""; reflexivity | intros _; reflexivity].
  - split; [intros _; exists (String b s); reflexivity | intros _; reflexivity].
  - split; [discriminate | intros [r H]; discriminate].
  - destruct (Ascii.ascii_dec a b) as [->|Hab].
    + rewrite IH. split; intros [r H]; exists r; [now subst | now inversion H].
    + split; [discriminate | intros [r H]; inversion H; congruence].
Qed.

Lemma includes_unfold (text needle : string) :
  includes text needle =
  if prefix needle text then true
  else match text with
       | EmptyString => false
       | String _ rest => includes rest needle
       end.
Proof. destruct text; reflexivity. Qed.

Lemma includes_iff (text needle : string) :
  includes text needle = true <-> contains text needle.
Proof.
  unfold contains.
  induction text as [|a text IH]; rewrite includes_unfold.
  - destruct (prefix needle "") eqn:Hp.
    + apply prefix_iff in Hp. destruct Hp as [r Hr].
      split; [intros _; exists "", r; exact Hr | intros _; reflexivity].
    + split; [discriminate|].
      intros [l [r H]]. destruct l; [|discriminate].
      assert (prefix needle "" = true) by (apply prefix_iff; now exists r).
      congruence.
  - destruct (prefix needle (String a text)) eqn:Hp.
    + apply prefix_iff in Hp. destruct Hp as [r Hr].
      split; [intros _; exists "", r; exact Hr | intros _; reflexivity].
    + rewrite IH. split.
      * intros [l [r H]]. exists (String a l), r. simpl. now rewrite H.
      * intros [l [r H]]. destruct l as [|b l].
        -- assert (prefix needle (String a text) = true)
             by (apply prefix_iff; now exists r).
           congruence.
        -- simpl in H. inversion H. now exists l, r.
Qed.

Lemma includes_false_iff (text needle : string) :
  includes text needle = false <-> ~ contains text needle.
Proof.
  rewrite <- includes_iff. destruct (includes text needle); split; congruence.
Qed.

(** ** The listeners compute the expected buffers *)

Lemma emit_run (e : Effect) (s : State) : emit e s = (Normal tt, after e s).
Proof. reflexivity. Qed.

Lemma on_pageerror_run (err : JsError) (s : State) :
  on_pageerror err s =
  (Normal tt,
   mkState (browser s)
           (errors s ++ [pageerror (err_message err) (err_stack err)])
           (consoleErrors s) (listeners s)
           (trace s ++ [console_error [LStr "Page error (uncaught exception):";
                                       LStr (err_message err)]])).
Proof. reflexivity. Qed.

Lemma on_console_run (msg : ConsoleMessage) (s : State) :
  on_console msg s =
  (Normal tt,
   mkState (browser s) (errors s)
           (consoleErrors s ++ console_entry (EvConsole msg))
           (listeners s) (trace s ++ console_output msg)).
Proof.
  unfold on_console, console_entry, console_output, reportable, benign_marker.
  destruct s as [b es ces ls tr]; destruct msg as [ty text]; simpl.
  destruct (String.eqb_spec ty "error") as [->|_]; simpl.
  - destruct (includes text "Failed to load resource"); simpl;
      [now rewrite !app_nil_r | reflexivity].
  - destruct (ty =? "warning"); [now rewrite app_nil_r|].
    destruct (ty =? "log"); now rewrite !app_nil_r.
Qed.

Lemma observed_nil (s : State) : observed [] s = s.
Proof.
  destruct s; unfold observed; simpl. now rewrite !app_nil_r.
Qed.

Lemma observed_cons (ev : PageEvent) (evs : list PageEvent) (s : State) :
  observed (ev :: evs) s = observed evs (observed [ev] s).
Proof.
  unfold observed, page_entries, console_entries, events_output; simpl.
  now rewrite !app_nil_r, !app_assoc.
Qed.

Lemma observed_app (evs1 evs2 : list PageEvent) (s : State) :
  observed (evs1 ++ evs2) s = observed evs2 (observed evs1 s).
Proof.
  unfold observed, page_entries, console_entries, events_output; simpl.
  now rewrite !flat_map_app, !app_assoc.
Qed.

Lemma deliver_attached (ev : PageEvent) (s : State) :
  listeners s = both_listeners ->
  deliver ev s = (Normal tt, observed [ev] s).
Proof.
  intros Hl. unfold deliver, bind, get. rewrite Hl.
  destruct ev as [err|msg]; cbn [call_listeners both_listeners event_name].
  - unfold bind; simpl. destruct s; unfold observed; simpl in *.
    now rewrite !app_nil_r.
  - unfold bind; simpl. rewrite on_console_run.
    destruct s; unfold observed; simpl in *. now rewrite !app_nil_r.
Qed.

Lemma deliver_all_attached (evs : list PageEvent) (s : State) :
  listeners s = both_listeners ->
  deliver_all evs s = (Normal tt, observed evs s).
Proof.
  revert s; induction evs as [|ev evs IH]; intros s Hl.
  - now rewrite observed_nil.
  - cbn [deliver_all]. unfold bind at 1.
    rewrite (deliver_attached ev s Hl), (observed_cons ev evs s).
    now apply IH.
Qed.

Lemma deliver_all_unattached (evs : list PageEvent) (s : State) :
  listeners s = [] -> deliver_all evs s = (Normal tt, s).
Proof.
  intros Hl; induction evs as [|ev evs IH]; [reflexivity|].
  cbn [deliver_all]. unfold bind at 1, deliver, bind, get.
  now rewrite Hl.
Qed.

Lemma await_attached {A} (p : list PageEvent * Settled A) (s : State) :
  listeners s = both_listeners ->
  await p s =
  (match snd p with Fulfilled a => Normal a | Rejected e => Throw e end,
   observed (fst p) s).
Proof.
  intros Hl. unfold await, bind.
  rewrite (deliver_all_attached (fst p) s Hl). now destruct (snd p).
Qed.

Lemma await_unattached {A} (p : list PageEvent * Settled A) (s : State) :
  listeners s = [] ->
  await p s =
  (match snd p with Fulfilled a => Normal a | Rejected e => Throw e end, s).
Proof.
  intros Hl. unfold await, bind.
  rewrite (deliver_all_unattached (fst p) s Hl). now destruct (snd p).
Qed.

(** ** The runs, case by case *)

Ltac run_step :=
  cbv beta iota delta [bind emit modify set_browser on ret get throw
                       browser errors consoleErrors listeners trace
                       observed after].

Section Runs.

Variable w : World.
Variable htmlFilePath : string.

Lemma run_missing :
  fs_existsSync w htmlFilePath = false ->
  evaluateP5Sketch w htmlFilePath initial =
  (Normal (mkResult false ("HTML file not found: " ++ htmlFilePath) None),
   after (console_error
            [LStr ("Error: HTML file not found at " ++ htmlFilePath)])
         initial).
Proof.
  intros Hex. unfold evaluateP5Sketch. rewrite Hex. reflexivity.
Qed.

Lemma run_launch_rejected (e : JsError) :
  fs_existsSync w htmlFilePath = true ->
  launch w = Rejected e ->
  evaluateP5Sketch w htmlFilePath initial =
  (Normal (failure_result e),
   mkState None [] [] []
           (found_trace (file_url w htmlFilePath) ++ [failure_log e])).
Proof.
  intros Hex Hl. unfold evaluateP5Sketch. rewrite Hex. cbn [negb].
  unfold try_catch_finally, try_block, catch_block, finally_block.
  run_step. rewrite await_unattached by reflexivity.
  cbn [snd]. rewrite Hl. reflexivity.
Qed.

Lemma run_newPage_rejected (b : Browser) (e : JsError) :
  fs_existsSync w htmlFilePath = true ->
  launch w = Fulfilled b ->
  snd (newPage w) = Rejected e ->
  evaluateP5Sketch w htmlFilePath initial =
  (closing w (failure_result e),
   mkState (Some b) [] [] []
           (found_trace (file_url w htmlFilePath)
              ++ [browser_newPage; failure_log e; browser_close])).
Proof.
  intros Hex Hl Hn. unfold evaluateP5Sketch. rewrite Hex. cbn [negb].
  unfold try_catch_finally, try_block, catch_block, finally_block.
  run_step. rewrite await_unattached by reflexivity.
  cbn [snd]. rewrite Hl. run_step.
  rewrite await_unattached by reflexivity. rewrite Hn. run_step.
  run_step.
  rewrite await_unattached by reflexivity.
  unfold closing. destruct (snd (close w)); reflexivity.
Qed.

Lemma run_goto_rejected (b : Browser) (e : JsError) :
  fs_existsSync w htmlFilePath = true ->
  launch w = Fulfilled b ->
  (exists pg, snd (newPage w) = Fulfilled pg) ->
  snd (goto w (file_url w htmlFilePath) navigation_timeout) = Rejected e ->
  evaluateP5Sketch w htmlFilePath initial =
  (closing w (failure_result e),
   observed (fst (close w))
     (after browser_close
        (after (failure_log e)
           (observed (fst (goto w (file_url w htmlFilePath)
                             navigation_timeout))
                     (attached_state b (file_url w htmlFilePath)))))).
Proof.
  intros Hex Hl [pg Hn] Hg. unfold evaluateP5Sketch. rewrite Hex. cbn [negb].
  unfold try_catch_finally, try_block, catch_block, finally_block.
  fold (file_url w htmlFilePath).
  run_step. rewrite await_unattached by reflexivity.
  cbn [snd]. rewrite Hl. run_step.
  rewrite await_unattached by reflexivity. rewrite Hn. run_step.
  rewrite await_attached by reflexivity. rewrite Hg. run_step.
  run_step.
  rewrite await_attached by reflexivity.
  unfold closing. destruct (snd (close w)); reflexivity.
Qed.

Lemma run_navigated (b : Browser) :
  fs_existsSync w htmlFilePath = true ->
  launch w = Fulfilled b ->
  (exists pg, snd (newPage w) = Fulfilled pg) ->
  (exists u, snd (goto w (file_url w htmlFilePath) navigation_timeout)
             = Fulfilled u) ->
  let s := read_state w b (file_url w htmlFilePath) in
  let allErrors := errors s ++ consoleErrors s in
  evaluateP5Sketch w htmlFilePath initial =
  (closing w (report allErrors),
   observed (fst (close w))
     (after browser_close (after (report_log allErrors) s))).
Proof.
  intros Hex Hl [pg Hn] [u Hg] s allErrors.
  unfold evaluateP5Sketch. rewrite Hex. cbn [negb].
  unfold try_catch_finally, try_block, catch_block, finally_block.
  fold (file_url w htmlFilePath).
  run_step. rewrite await_unattached by reflexivity.
  cbn [snd]. rewrite Hl. run_step.
  rewrite await_unattached by reflexivity. rewrite Hn. run_step.
  rewrite await_attached by reflexivity. rewrite Hg. run_step.
  rewrite await_attached by reflexivity. cbn [snd fst]. run_step.
  match goal with
  | |- context [Nat.ltb 0 (List.length ?all)] => change all with allErrors
  end.
  clearbody allErrors.
  destruct allErrors as [|x l];
    cbn [List.length Nat.ltb Nat.leb]; run_step;
    rewrite await_attached by reflexivity;
    unfold closing; destruct (snd (close w)); reflexivity.
Qed.

End Runs.

(** ** One characterisation of every run *)

Lemma read_state_errors (w : World) (b : Browser) (url : string) :
  errors (read_state w b url) = page_entries (window_events w url).
Proof.
  unfold read_state, window_events, page_entries; simpl.
  now rewrite flat_map_app.
Qed.

Lemma read_state_consoleErrors (w : World) (b : Browser) (url : string) :
  consoleErrors (read_state w b url) = console_entries (window_events w url).
Proof.
  unfold read_state, window_events, console_entries; simpl.
  now rewrite flat_map_app.
Qed.

Lemma read_state_all (w : World) (b : Browser) (url : string) :
  errors (read_state w b url) ++ consoleErrors (read_state w b url)
  = collected w url.
Proof.
  now rewrite read_state_errors, read_state_consoleErrors.
Qed.

Lemma run_spec (w : World) (htmlFilePath : string) :
  evaluateP5Sketch w htmlFilePath initial =
  (expected w htmlFilePath, final_state w htmlFilePath).
Proof.
  unfold expected, final_state, session_failure.
  destruct (fs_existsSync w htmlFilePath) eqn:Hex.
  2: { now apply run_missing. }
  destruct (launch w) as [b|e] eqn:Hl.
  2: { now apply run_launch_rejected. }
  destruct (snd (newPage w)) as [pg|e] eqn:Hn.
  2: { now apply run_newPage_rejected. }
  destruct (snd (goto w (file_url w htmlFilePath) navigation_timeout))
    as [u|e] eqn:Hg.
  2: { apply run_goto_rejected; eauto. }
  rewrite <- read_state_all with (b := b).
  apply run_navigated; eauto.
Qed.

(** ** Facts about entries and traces *)

Lemma page_entries_type (evs : list PageEvent) (e : ErrorEntry) :
  In e (page_entries evs) -> entry_type e = "pageerror".
Proof.
  unfold page_entries. rewrite in_flat_map. intros [ev [_ Hin]].
  destruct ev as [err|msg]; simpl in Hin; [|contradiction].
  destruct Hin as [<-|[]]. reflexivity.
Qed.

Lemma console_entries_type (evs : list PageEvent) (e : ErrorEntry) :
  In e (console_entries evs) -> entry_type e = "console.error".
Proof.
  unfold console_entries. rewrite in_flat_map. intros [ev [_ Hin]].
  destruct ev as [err|msg]; simpl in Hin; [contradiction|].
  destruct (reportable msg); [|contradiction].
  destruct Hin as [<-|[]]. reflexivity.
Qed.

Lemma console_entries_reportable (evs : list PageEvent) (text : string) :
  In (console_error_entry text) (console_entries evs) ->
  includes text benign_marker = false.
Proof.
  unfold console_entries. rewrite in_flat_map. intros [ev [_ Hin]].
  destruct ev as [err|msg]; simpl in Hin; [contradiction|].
  destruct (reportable msg) eqn:Hr; [|contradiction].
  destruct Hin as [Heq|[]]. inversion Heq; subst.
  unfold reportable in Hr. apply andb_true_iff in Hr.
  destruct Hr as [_ Hr]. now apply negb_true_iff in Hr.
Qed.

Lemma page_entries_in (evs : list PageEvent) (err : JsError) :
  In (EvPageError err) evs ->
  In (pageerror (err_message err) (err_stack err)) (page_entries evs).
Proof.
  intros Hin. unfold page_entries. apply in_flat_map.
  exists (EvPageError err). split; [exact Hin | now left].
Qed.

Lemma count_app (f : Effect -> bool) (a b : list Effect) :
  count f (a ++ b) = count f a + count f b.
Proof. unfold count. now rewrite filter_app, length_app. Qed.

Lemma count_listener_output (f : Effect -> bool) (evs : list PageEvent) :
  (forall e, is_listener_output e = true -> f e = false) ->
  count f (events_output evs) = 0.
Proof.
  intros Hf. unfold count, events_output.
  induction evs as [|ev evs IH]; [reflexivity|].
  cbn [flat_map]. rewrite filter_app, length_app, IH, Nat.add_0_r.
  destruct ev as [err|msg]; simpl.
  - now rewrite Hf.
  - unfold console_output.
    destruct (reportable msg); [simpl; now rewrite Hf|].
    destruct (msg_type msg =? "warning"); [simpl; now rewrite Hf|].
    destruct (msg_type msg =? "log"); [simpl; now rewrite Hf|reflexivity].
Qed.

Lemma filter_listener_output (evs : list PageEvent) :
  filter is_listener_output (events_output evs) = events_output evs.
Proof.
  unfold events_output.
  induction evs as [|ev evs IH]; [reflexivity|].
  cbn [flat_map]. rewrite filter_app, IH. f_equal.
  destruct ev as [err|msg]; [reflexivity|].
  unfold event_output, console_output.
  destruct (reportable msg); [reflexivity|].
  destruct (msg_type msg =? "warning"); [reflexivity|].
  destruct (msg_type msg =? "log"); reflexivity.
Qed.

Lemma report_log_not_listener (l : list ErrorEntry) :
  is_listener_output (report_log l) = false.
Proof. destruct l; reflexivity. Qed.

Lemma report_log_count (f : Effect -> bool) (l : list ErrorEntry) :
  (forall args, f (console_log args) = false) ->
  count f [report_log l] = 0.
Proof. intros Hf. destruct l; unfold count; simpl; now rewrite Hf. Qed.

(** ** Properties of the script *)

(** C1: when the input path does not reference an existing file, the call
    returns [{success: false, message: "HTML file not found: <path>"}] and
    no browser is launched: the trace holds no launch, nor any other
    browser operation. *)
Theorem missing_file_fails_without_launch (w : World) (htmlFilePath : string) :
  fs_existsSync w htmlFilePath = false ->
  exists s,
    evaluateP5Sketch w htmlFilePath initial =
      (Normal (mkResult false ("HTML file not found: " ++ htmlFilePath) None),
       s)
    /\ count is_launch (trace s) = 0
    /\ count is_browser_op (trace s) = 0
    /\ browser s = None.
Proof.
  intros Hex. eexists. split; [now apply run_missing|].
  repeat split.
Qed.

Lemma missing_file_fails_without_launch_witness :
  fs_existsSync missing_world "sketch.html" = false /\
  exists s,
    evaluateP5Sketch missing_world "sketch.html" initial =
      (Normal (mkResult false "HTML file not found: sketch.html" None), s)
    /\ count is_launch (trace s) = 0
    /\ count is_browser_op (trace s) = 0
    /\ browser s = None.
Proof.
  split; [reflexivity|].
  apply (missing_file_fails_without_launch missing_world "sketch.html").
  reflexivity.
Defined.

(** C2, as stated, fails: a call on a missing file returns without any
    launch or navigation failure and with nothing collected, yet its result
    has [success = false]. *)
Lemma success_iff_nothing_collected_counterexample :
  ~ success_iff_nothing_collected_as_stated missing_world "a.html".
Proof.
  intros H.
  specialize (H (missing_result "a.html")
                (final_state missing_world "a.html") eq_refl).
  assert (Hno : forall e,
             ~ In (failure_log e)
                  (trace (final_state missing_world "a.html"))).
  { intros e [Heq|[]]. discriminate Heq. }
  destruct (H Hno) as [_ Hback]. discriminate (Hback eq_refl).
Qed.

(** C2, amended: for an existing file, when the session opens (launch and
    page creation succeed) and navigation succeeds, a returned result has
    [success = true] exactly when nothing was collected during the
    observation window; it is then
    [{success: true, message: "No runtime errors detected."}], and otherwise
    carries "Runtime errors detected." with the collected entries.  A result
    is returned whenever closing the browser succeeds. *)
Theorem success_iff_nothing_collected (w : World) (htmlFilePath : string) :
  fs_existsSync w htmlFilePath = true ->
  session_failure w (file_url w htmlFilePath) = None ->
  let found := collected w (file_url w htmlFilePath) in
  let c := fst (evaluateP5Sketch w htmlFilePath initial) in
  (forall r, c = Normal r ->
     (success r = true <-> found = []) /\
     (found = [] -> r = mkResult true "No runtime errors detected." None) /\
     (found <> [] ->
      r = mkResult false "Runtime errors detected." (Some found)))
  /\ (is_fulfilled (snd (close w)) = true -> exists r, c = Normal r).
Proof.
  intros Hex Hsf found c. subst c. rewrite run_spec. cbn [fst].
  unfold expected. rewrite Hex.
  destruct (launch w) as [b|e] eqn:Hl.
  2: { unfold session_failure in Hsf. rewrite Hl in Hsf. discriminate. }
  rewrite Hsf. fold found. unfold closing.
  destruct (snd (close w)) as [u|e]; cbn [is_fulfilled].
  - split; [|intros _; eauto].
    intros r Hr. injection Hr as <-.
    destruct found as [|x l]; cbn [report success].
    + repeat split; congruence.
    + repeat split; congruence.
  - split; [intros r Hr; discriminate | discriminate].
Qed.

Lemma success_iff_nothing_collected_witness :
  fs_existsSync noisy_world "a.html" = true /\
  session_failure noisy_world (file_url noisy_world "a.html") = None /\
  exists r,
    fst (evaluateP5Sketch noisy_world "a.html" initial) = Normal r /\
    success r = false /\
    r_errors r = Some (collected noisy_world (file_url noisy_world "a.html")).
Proof.
  split; [reflexivity|]. split; [reflexivity|].
  destruct (success_iff_nothing_collected noisy_world "a.html"
              eq_refl eq_refl) as [Hres Hret].
  destruct (Hret eq_refl) as [r Hr]. exists r. split; [exact Hr|].
  destruct (Hres r Hr) as [_ [_ Hnonempty]].
  rewrite Hnonempty; [split; reflexivity|].
  vm_compute. discriminate.
Defined.

(** C3: a result that reports collected runtime errors lists the page
    errors first and the console errors after them, each group in the order
    its events arrived, whatever the interleaving of the two channels was;
    so every page error stands before every console error. *)
Theorem page_errors_precede_console_errors
    (w : World) (htmlFilePath : string) (r : Result) (s : State) :
  evaluateP5Sketch w htmlFilePath initial = (Normal r, s) ->
  success r = false ->
  r_message r = "Runtime errors detected." ->
  let evs := window_events w (file_url w htmlFilePath) in
  r_errors r = Some (page_entries evs ++ console_entries evs)
  /\ forall l i j e1 e2,
       r_errors r = Some l ->
       nth_error l i = Some e1 -> entry_type e1 = "pageerror" ->
       nth_error l j = Some e2 -> entry_type e2 = "console.error" ->
       i < j.
Proof.
  intros Hrun Hs Hm evs. rewrite run_spec in Hrun.
  injection Hrun as Hc _. unfold expected in Hc.
  assert (Hr : r_errors r = Some (page_entries evs ++ console_entries evs)).
  { destruct (fs_existsSync w htmlFilePath).
    2: { injection Hc as <-. discriminate Hm. }
    destruct (launch w) as [b|e].
    2: { injection Hc as <-. discriminate Hm. }
    unfold closing in Hc.
    destruct (session_failure w (file_url w htmlFilePath)) as [e|].
    - destruct (snd (close w)); [|discriminate].
      injection Hc as <-. discriminate Hm.
    - destruct (snd (close w)); [|discriminate].
      injection Hc as <-. unfold collected in *. fold evs in Hs |- *.
      destruct (page_entries evs ++ console_entries evs); [discriminate Hs|].
      reflexivity. }
  split; [exact Hr|].
  intros l i j e1 e2 Hl Hi Ht1 Hj Ht2.
  rewrite Hr in Hl. injection Hl as <-.
  destruct (Nat.lt_ge_cases i (List.length (page_entries evs))) as [Hlt|Hge].
  - destruct (Nat.lt_ge_cases j (List.length (page_entries evs))) as [Hlt'|Hge'].
    + rewrite nth_error_app1 in Hj by exact Hlt'.
      apply nth_error_In, page_entries_type in Hj.
      rewrite Hj in Ht2. discriminate.
    + lia.
  - rewrite nth_error_app2 in Hi by exact Hge.
    apply nth_error_In, console_entries_type in Hi.
    rewrite Hi in Ht1. discriminate.
Qed.

Lemma page_errors_precede_console_errors_witness :
  exists r s,
    evaluateP5Sketch noisy_world "a.html" initial = (Normal r, s) /\
    r_errors r =
      Some [pageerror "x is not defined" (Some "ReferenceError");
            pageerror "Failed to load resource" None;
            console_error_entry "first"].
Proof.
  pose (run := evaluateP5Sketch noisy_world "a.html" initial).
  assert (Hrun : exists r s, run = (Normal r, s) /\ success r = false
                 /\ r_message r = "Runtime errors detected.").
  { vm_compute. eexists; eexists. split; [reflexivity|]. split; reflexivity. }
  destruct Hrun as [r [s [Hrun [Hs Hm]]]]. exists r, s. split; [exact Hrun|].
  destruct (page_errors_precede_console_errors noisy_world "a.html" r s
              Hrun Hs Hm) as [Hr _].
  rewrite Hr. vm_compute. reflexivity.
Defined.

(** C9: among failure results, the one for a missing file is the only one
    without an [errors] field; a launch or navigation failure and a report
    of runtime errors always carry a non-empty [errors] sequence. *)
Theorem errors_field_absent_only_for_missing_file
    (w : World) (htmlFilePath : string) (r : Result) (s : State) :
  evaluateP5Sketch w htmlFilePath initial = (Normal r, s) ->
  success r = false ->
  (fs_existsSync w htmlFilePath = false ->
   r = mkResult false ("HTML file not found: " ++ htmlFilePath) None)
  /\ (fs_existsSync w htmlFilePath = true ->
      exists e l, r_errors r = Some (e :: l))
  /\ (r_errors r = None <-> fs_existsSync w htmlFilePath = false).
Proof.
  intros Hrun Hs. rewrite run_spec in Hrun.
  injection Hrun as Hc _. unfold expected in Hc.
  destruct (fs_existsSync w htmlFilePath).
  2: { injection Hc as <-. repeat split; intros; try reflexivity;
       discriminate. }
  assert (Hne : exists e l, r_errors r = Some (e :: l)).
  { destruct (launch w) as [b|e].
    2: { injection Hc as <-. simpl. eauto. }
    unfold closing in Hc.
    destruct (session_failure w (file_url w htmlFilePath)) as [e|].
    - destruct (snd (close w)); [|discriminate].
      injection Hc as <-. simpl. eauto.
    - destruct (snd (close w)); [|discriminate].
      injection Hc as <-.
      destruct (collected w (file_url w htmlFilePath)); [discriminate Hs|].
      simpl. eauto. }
  split; [discriminate|]. split; [intros _; exact Hne|].
  destruct Hne as [e [l Hne]]. rewrite Hne. split; discriminate.
Qed.

Lemma errors_field_absent_only_for_missing_file_witness :
  exists r s,
    evaluateP5Sketch missing_world "a.html" initial = (Normal r, s) /\
    success r = false /\
    r_errors r = None.
Proof.
  pose (run := evaluateP5Sketch missing_world "a.html" initial).
  assert (Hrun : exists r s, run = (Normal r, s) /\ success r = false).
  { vm_compute. eexists; eexists. split; reflexivity. }
  destruct Hrun as [r [s [Hrun Hs]]]. exists r, s.
  split; [exact Hrun|]. split; [exact Hs|].
  destruct (errors_field_absent_only_for_missing_file missing_world "a.html"
              r s Hrun Hs) as [_ [_ Hiff]].
  apply Hiff. reflexivity.
Defined.

(** ** Browser operations in the trace of a run *)

Ltac no_listener_output :=
  let e := fresh "e" in
  intros e; destruct e as [[|[]]| | | | | | | | |]; simpl; congruence.

Ltac count_trace :=
  cbn [trace observed after attached_state read_state initial];
  rewrite ?count_app;
  rewrite ?count_listener_output by no_listener_output;
  rewrite ?report_log_count by reflexivity;
  reflexivity.

Lemma final_launch_count (w : World) (htmlFilePath : string) :
  count is_launch (trace (final_state w htmlFilePath)) =
  if fs_existsSync w htmlFilePath then 1 else 0.
Proof.
  unfold final_state. destruct (fs_existsSync w htmlFilePath); [|reflexivity].
  destruct (launch w); [|reflexivity].
  destruct (snd (newPage w)); [|reflexivity].
  destruct (snd (goto w _ _)); count_trace.
Qed.

Lemma final_close_count (w : World) (htmlFilePath : string) :
  count is_close (trace (final_state w htmlFilePath)) =
  if fs_existsSync w htmlFilePath && is_fulfilled (launch w) then 1 else 0.
Proof.
  unfold final_state. destruct (fs_existsSync w htmlFilePath); [|reflexivity].
  destruct (launch w); [|reflexivity].
  destruct (snd (newPage w)); [|reflexivity].
  destruct (snd (goto w _ _)); count_trace.
Qed.

Lemma final_goto_count (w : World) (htmlFilePath : string) :
  count is_goto (trace (final_state w htmlFilePath)) =
  if fs_existsSync w htmlFilePath && is_fulfilled (launch w)
     && is_fulfilled (snd (newPage w))
  then 1 else 0.
Proof.
  unfold final_state. destruct (fs_existsSync w htmlFilePath); [|reflexivity].
  destruct (launch w); [|reflexivity].
  destruct (snd (newPage w)); [|reflexivity].
  destruct (snd (goto w _ _)); count_trace.
Qed.

(** C5: when the launch, the page creation or the navigation fails, a
    returned result has [success = false] and carries exactly one entry, of
    kind [puppeteer_error], with the failure's message and stack; a result is
    returned when the launch itself failed or the browser closes normally;
    nothing is retried: one launch, at most one navigation. *)
Theorem session_failure_reported_once
    (w : World) (htmlFilePath : string) (e : JsError) :
  fs_existsSync w htmlFilePath = true ->
  session_failure w (file_url w htmlFilePath) = Some e ->
  let run := evaluateP5Sketch w htmlFilePath initial in
  (forall r, fst run = Normal r ->
     success r = false /\
     r_errors r = Some [puppeteer_error (err_message e) (err_stack e)] /\
     r_message r = ("Puppeteer or navigation error: " ++ err_message e)%string)
  /\ (is_fulfilled (launch w) = false \/ is_fulfilled (snd (close w)) = true ->
      exists r, fst run = Normal r)
  /\ count is_launch (trace (snd run)) = 1
  /\ count is_goto (trace (snd run)) <= 1.
Proof.
  intros Hex Hsf run. subst run. rewrite run_spec. cbn [fst snd].
  rewrite final_launch_count, final_goto_count, Hex.
  split; [|split; [|split]].
  - intros r Hr. unfold expected in Hr. rewrite Hex, Hsf in Hr.
    unfold session_failure in Hsf.
    destruct (launch w) as [b|e'].
    + unfold closing in Hr. destruct (snd (close w)); [|discriminate].
      injection Hr as <-. repeat split.
    + injection Hsf as ->. injection Hr as <-. repeat split.
  - unfold expected. rewrite Hex, Hsf. unfold session_failure in Hsf.
    destruct (launch w) as [b|e']; [|eauto].
    intros [H|H]; [discriminate|]. unfold closing.
    destruct (snd (close w)); [eauto|discriminate].
  - reflexivity.
  - destruct (_ && _ && _); lia.
Qed.

Lemma session_failure_reported_once_witness :
  fs_existsSync goto_fail_world "a.html" = true /\
  session_failure goto_fail_world (file_url goto_fail_world "a.html")
    = Some boom /\
  exists r,
    fst (evaluateP5Sketch goto_fail_world "a.html" initial) = Normal r /\
    r_errors r = Some [puppeteer_error "boom" (Some "Error: boom at <anonymous>")].
Proof.
  split; [reflexivity|]. split; [reflexivity|].
  destruct (session_failure_reported_once goto_fail_world "a.html" boom
              eq_refl eq_refl) as [Hres [Hret _]].
  destruct (Hret (or_intror eq_refl)) as [r Hr]. exists r.
  split; [exact Hr|]. destruct (Hres r Hr) as [_ [He _]]. exact He.
Defined.

(** C6, as stated, fails: when the file is missing no session is opened at
    all. *)
Lemma one_session_per_call_counterexample :
  ~ one_session_opened_and_closed missing_world "a.html".
Proof.
  unfold one_session_opened_and_closed. vm_compute. intros [H _].
  discriminate H.
Qed.

(** C6, amended: a call launches a browser exactly once when the file
    exists and never otherwise; [browser.close()] is called exactly once
    when the launch succeeded and never otherwise; and that call comes after
    the launch and after every other browser operation, in whatever state
    the evaluation ended. *)
Theorem session_closed_once_when_opened (w : World) (htmlFilePath : string) :
  let s := snd (evaluateP5Sketch w htmlFilePath initial) in
  let opened := fs_existsSync w htmlFilePath && is_fulfilled (launch w) in
  count is_launch (trace s) = (if fs_existsSync w htmlFilePath then 1 else 0)
  /\ count is_close (trace s) = (if opened then 1 else 0)
  /\ (if opened then
        exists pre post,
          trace s = pre ++ browser_close :: post
          /\ count is_launch pre = 1
          /\ count is_close pre = 0
          /\ count is_browser_op post = 0
      else browser s = None).
Proof.
  intros s opened. subst s opened. rewrite run_spec. cbn [snd].
  split; [apply final_launch_count|]. split; [apply final_close_count|].
  unfold final_state. destruct (fs_existsSync w htmlFilePath); [|reflexivity].
  destruct (launch w) as [b|e]; [|reflexivity]. cbn [andb is_fulfilled].
  destruct (snd (newPage w)) as [pg|e].
  - destruct (snd (goto w _ _)) as [u|e];
      eexists; exists (events_output (fst (close w)));
      cbn [trace observed after];
      (split; [rewrite <- app_assoc; reflexivity|]);
      repeat split; try count_trace.
  - exists (found_trace (file_url w htmlFilePath)
              ++ [browser_newPage; failure_log e]), [].
    cbn [trace]. split; [now rewrite <- app_assoc|]. repeat split.
Qed.

(** C7: in every run that reaches the navigation, the trace shows the two
    registrations immediately before the single [page.goto], and every event
    delivered from the start of navigation on has reached its listener: the
    buffers hold exactly the entries of those events and the diagnostic
    output of the listeners is exactly theirs. *)
Theorem listeners_attached_before_navigation
    (w : World) (htmlFilePath : string) (c : Completion Result) (s : State) :
  evaluateP5Sketch w htmlFilePath initial = (c, s) ->
  count is_goto (trace s) <> 0 ->
  let url := file_url w htmlFilePath in
  let delivered := delivered_from_navigation w url in
  exists pre post,
    trace s = pre ++ attach_then_goto url ++ post
    /\ count is_goto pre = 0
    /\ count is_goto post = 0
    /\ errors s = page_entries delivered
    /\ consoleErrors s = console_entries delivered
    /\ filter is_listener_output post = events_output delivered.
Proof.
  intros Hrun Hgoto url delivered. rewrite run_spec in Hrun.
  injection Hrun as _ <-. subst delivered. unfold delivered_from_navigation.
  unfold final_state in *. fold url in Hgoto |- *.
  destruct (fs_existsSync w htmlFilePath); [|now elim Hgoto].
  destruct (launch w) as [b|e]; [|now elim Hgoto].
  destruct (snd (newPage w)) as [pg|e]; [|now elim Hgoto].
  exists (found_trace url ++ [browser_newPage]).
  destruct (snd (goto w url navigation_timeout)) as [u|e].
  - exists (events_output (fst (goto w url navigation_timeout))
            ++ [setTimeout observation_window]
            ++ events_output (timer_events w observation_window)
            ++ [report_log (collected w url)] ++ [browser_close]
            ++ events_output (fst (close w))).
    cbn [trace errors consoleErrors observed after attached_state read_state].
    split; [now rewrite <- !app_assoc|].
    split; [reflexivity|]. split; [count_trace|].
    unfold page_entries, console_entries, events_output.
    rewrite !flat_map_app, !app_assoc.
    split; [reflexivity|]. split; [reflexivity|].
    rewrite !filter_app. fold events_output.
    rewrite !filter_listener_output. cbn [filter is_listener_output].
    rewrite report_log_not_listener. cbn [app].
    now rewrite !app_nil_r, <- !app_assoc.
  - exists (events_output (fst (goto w url navigation_timeout))
            ++ [failure_log e; browser_close]
            ++ events_output (fst (close w))).
    cbn [trace errors consoleErrors observed after attached_state].
    split; [now rewrite <- !app_assoc|].
    split; [reflexivity|]. split; [count_trace|].
    unfold page_entries, console_entries, events_output.
    rewrite !flat_map_app.
    split; [reflexivity|]. split; [reflexivity|].
    rewrite !filter_app. fold events_output.
    rewrite !filter_listener_output. reflexivity.
Qed.

Lemma listeners_attached_before_navigation_witness :
  exists pre post,
    trace (snd (evaluateP5Sketch noisy_world "a.html" initial))
      = pre ++ attach_then_goto "file:///abs/a.html" ++ post
    /\ count is_goto pre = 0
    /\ consoleErrors (snd (evaluateP5Sketch noisy_world "a.html" initial))
       = [console_error_entry "first"].
Proof.
  pose (run := evaluateP5Sketch noisy_world "a.html" initial).
  assert (Hg : count is_goto (trace (snd run)) <> 0)
    by (vm_compute; discriminate).
  destruct (listeners_attached_before_navigation noisy_world "a.html"
              (fst run) (snd run) (surjective_pairing run) Hg)
    as [pre [post [Ht [Hpre [_ [_ [Hce _]]]]]]].
  exists pre, post. split; [exact Ht|]. split; [exact Hpre|].
  fold run. rewrite Hce. vm_compute. reflexivity.
Defined.

(** C4: a console message that reaches the attached listeners is treated by
    severity.  An "error" whose text contains "Failed to load resource"
    changes nothing: it is not buffered, not written, and no result ever
    lists it.  Any other "error" is appended to the console-error sequence
    and written to standard error.  A "warning" or a "log" is written to
    standard error and not buffered. *)
Theorem console_messages_classified (msg : ConsoleMessage) (s : State) :
  listeners s = both_listeners ->
  let text := msg_text msg in
  let s' := snd (deliver (EvConsole msg) s) in
  fst (deliver (EvConsole msg) s) = Normal tt
  /\ errors s' = errors s
  /\ (msg_type msg = "error" -> contains text "Failed to load resource" ->
      s' = s
      /\ forall w p r sf l,
           evaluateP5Sketch w p initial = (Normal r, sf) ->
           r_errors r = Some l -> ~ In (console_error_entry text) l)
  /\ (msg_type msg = "error" -> ~ contains text "Failed to load resource" ->
      consoleErrors s' = consoleErrors s ++ [console_error_entry text]
      /\ trace s' =
         trace s ++ [stderr_write ("Console error: " ++ text ++ newline)])
  /\ (msg_type msg = "warning" ->
      consoleErrors s' = consoleErrors s
      /\ trace s' =
         trace s ++ [stderr_write ("Console warning: " ++ text ++ newline)])
  /\ (msg_type msg = "log" ->
      consoleErrors s' = consoleErrors s
      /\ trace s' =
         trace s ++ [stderr_write ("Console log: " ++ text ++ newline)]).
Proof.
  intros Hl text s'. subst s'. rewrite (deliver_attached _ s Hl).
  cbn [fst snd]. unfold observed, page_entries, console_entries, events_output.
  cbn [flat_map page_entry console_entry event_output errors consoleErrors
       trace]. rewrite !app_nil_r. unfold console_output, reportable.
  fold text. fold benign_marker.
  split; [reflexivity|]. split; [reflexivity|].
  split; [|split; [|split]].
  - intros Hty Hin. apply includes_iff in Hin. unfold benign_marker in *.
    rewrite Hty, Hin. cbn. rewrite !app_nil_r. split; [now destruct s|].
    intros w p r sf l Hrun Hr Hmem. rewrite run_spec in Hrun.
    injection Hrun as Hc _. unfold expected, closing in Hc.
    assert (Hcoll : ~ In (console_error_entry text)
                         (collected w (file_url w p))).
    { unfold collected. intros H. apply in_app_or in H. destruct H as [H|H].
      - apply page_entries_type in H. discriminate.
      - apply console_entries_reportable in H. unfold benign_marker in H.
        congruence. }
    destruct (fs_existsSync w p).
    2: { injection Hc as <-. discriminate. }
    destruct (launch w).
    2: { injection Hc as <-. injection Hr as <-.
         destruct Hmem as [H|[]]; discriminate. }
    destruct (session_failure w (file_url w p));
      (destruct (snd (close w)); [|discriminate]); injection Hc as <-.
    + injection Hr as <-. destruct Hmem as [H|[]]; discriminate.
    + destruct (collected w (file_url w p)) eqn:E; [discriminate|].
      injection Hr as <-. contradiction.
  - intros Hty Hin. apply includes_false_iff in Hin.
    unfold benign_marker in *. rewrite Hty, Hin. cbn. split; reflexivity.
  - intros Hty. rewrite Hty. cbn. rewrite app_nil_r. split; reflexivity.
  - intros Hty. rewrite Hty. cbn. rewrite app_nil_r. split; reflexivity.
Qed.

Lemma console_messages_classified_witness :
  listeners (attached_state BrowserHandle "file:///a.html") = both_listeners /\
  snd (deliver (EvConsole (mkConsoleMessage "error"
                             "Failed to load resource: net::ERR_FILE_NOT_FOUND"))
               (attached_state BrowserHandle "file:///a.html"))
  = attached_state BrowserHandle "file:///a.html".
Proof.
  split; [reflexivity|].
  destruct (console_messages_classified
              (mkConsoleMessage "error"
                 "Failed to load resource: net::ERR_FILE_NOT_FOUND")
              (attached_state BrowserHandle "file:///a.html") eq_refl)
    as [_ [_ [Hbenign _]]].
  apply Hbenign; [reflexivity|].
  exists "", ": net::ERR_FILE_NOT_FOUND". reflexivity.
Defined.

(** C10: an uncaught page exception that reaches the attached listeners is
    always buffered, with its message and stack, and announced on the error
    stream; no test on its message is made, so a page error whose message
    contains "Failed to load resource" is reported like any other. *)
Theorem page_errors_never_filtered (err : JsError) (s : State) :
  listeners s = both_listeners ->
  let s' := snd (deliver (EvPageError err) s) in
  let entry := pageerror (err_message err) (err_stack err) in
  fst (deliver (EvPageError err) s) = Normal tt
  /\ errors s' = errors s ++ [entry]
  /\ consoleErrors s' = consoleErrors s
  /\ trace s' =
     trace s ++ [console_error [LStr "Page error (uncaught exception):";
                                LStr (err_message err)]]
  /\ forall w p r sf,
       evaluateP5Sketch w p initial = (Normal r, sf) ->
       fs_existsSync w p = true ->
       session_failure w (file_url w p) = None ->
       In (EvPageError err) (window_events w (file_url w p)) ->
       success r = false /\ exists l, r_errors r = Some l /\ In entry l.
Proof.
  intros Hl s' entry. subst s'. rewrite (deliver_attached _ s Hl).
  cbn [fst snd]. unfold observed, page_entries, console_entries, events_output.
  cbn [flat_map page_entry console_entry event_output errors consoleErrors
       trace]. rewrite !app_nil_r.
  repeat (split; [reflexivity|]).
  intros w p r sf Hrun Hex Hsf Hin. rewrite run_spec in Hrun.
  injection Hrun as Hc _. unfold expected, closing in Hc.
  rewrite Hex, Hsf in Hc.
  assert (Hmem : In entry (collected w (file_url w p))).
  { unfold collected. apply in_or_app. left. now apply page_entries_in. }
  destruct (launch w) as [b|e] eqn:Hlaunch.
  2: { unfold session_failure in Hsf. rewrite Hlaunch in Hsf. discriminate. }
  destruct (snd (close w)); [|discriminate]. injection Hc as <-.
  destruct (collected w (file_url w p)) eqn:E; [contradiction|].
  split; [reflexivity|]. eexists. split; [reflexivity|exact Hmem].
Qed.

Lemma page_errors_never_filtered_witness :
  listeners (attached_state BrowserHandle "file:///a.html") = both_listeners /\
  includes "Failed to load resource" "Failed to load resource" = true /\
  errors (snd (deliver (EvPageError (mkJsError "Failed to load resource" None))
                       (attached_state BrowserHandle "file:///a.html")))
  = [pageerror "Failed to load resource" None].
Proof.
  split; [reflexivity|]. split; [reflexivity|].
  destruct (page_errors_never_filtered
              (mkJsError "Failed to load resource" None)
              (attached_state BrowserHandle "file:///a.html") eq_refl)
    as [_ [He _]].
  exact He.
Defined.

(** C8: the process exits with code 0 exactly when an argument was given, the
    evaluation returned a result and that result has [success = true]; in
    every other case (argument missing or empty, file not found, errors
    reported, a failure escaping to the top-level handler) it exits with
    code 1.  The last effect of the process is that [process.exit]. *)
Theorem exit_code_reflects_result (w : World) (argv2 : option string) :
  let code := snd (main w argv2) in
  (code = 0%Z <->
   exists p r s,
     argv2 = Some p /\ falsy argv2 = false /\
     evaluateP5Sketch w p initial = (Normal r, s) /\ success r = true)
  /\ (code = 0%Z \/ code = 1%Z)
  /\ (exists tr, fst (main w argv2) = tr ++ [process_exit code])
  /\ (falsy argv2 = true -> code = 1%Z)
  /\ (forall p, argv2 = Some p -> fs_existsSync w p = false -> code = 1%Z)
  /\ (forall p r s,
        argv2 = Some p ->
        evaluateP5Sketch w p initial = (Normal r, s) ->
        success r = false -> code = 1%Z)
  /\ (forall p e s,
        argv2 = Some p ->
        evaluateP5Sketch w p initial = (Throw e, s) -> code = 1%Z).
Proof.
  intros code. subst code. unfold main.
  destruct argv2 as [p|].
  2: { cbn [fst snd]. repeat split; try discriminate; eauto.
       - intros [p [r [s [H _]]]]. discriminate.
       - eexists [_]. reflexivity. }
  destruct (falsy (Some p)) eqn:Hf.
  { cbn [fst snd]. repeat split; try discriminate; eauto.
    - intros [p' [r [s [_ [H _]]]]]. discriminate.
    - eexists [_]. reflexivity. }
  assert (Hmissing : fs_existsSync w p = false ->
                     exists s, evaluateP5Sketch w p initial
                               = (Normal (missing_result p), s)).
  { intros Hex. rewrite run_spec. unfold expected. rewrite Hex. eauto. }
  destruct (evaluateP5Sketch w p initial) as [[r|e] s] eqn:Hrun.
  - destruct (success r) eqn:Hs; cbn [negb fst snd].
    + split.
      { split; [intros _; exists p, r, s; auto | reflexivity]. }
      split; [now left|].
      split; [eexists (trace s ++ [_; _]); now rewrite <- app_assoc|].
      split; [discriminate|]. split.
      { intros p' Hp Hex. injection Hp as <-.
        destruct (Hmissing Hex) as [s' H]. injection H as -> _.
        discriminate Hs. }
      split.
      { intros p' r' s' Hp H Hs'. injection Hp as <-.
        rewrite Hrun in H. injection H as <- _. congruence. }
      intros p' e s' Hp H. injection Hp as <-. rewrite Hrun in H.
      discriminate H.
    + split.
      { split; [discriminate|].
        intros [p' [r' [s' [Hp [_ [H Hs']]]]]]. injection Hp as <-.
        rewrite Hrun in H. injection H as <- _. congruence. }
      split; [now right|].
      split; [eexists (trace s ++ [_; _]); now rewrite <- app_assoc|].
      repeat split; reflexivity.
  - cbn [fst snd]. split.
    { split; [discriminate|].
      intros [p' [r' [s' [Hp [_ [H _]]]]]]. injection Hp as <-.
      rewrite Hrun in H. discriminate H. }
    split; [now right|].
    split; [eexists (trace s ++ [_]); now rewrite <- app_assoc|].
    repeat split; reflexivity.
Qed.

(** The top-level handler is reachable: when [browser.close()] rejects, the
    call rejects and the process exits with code 1. *)
Example close_failure_exits_1 :
  fst (evaluateP5Sketch close_fail_world "a.html" initial) = Throw boom /\
  snd (main close_fail_world (Some "a.html")) = 1%Z.
Proof. split; vm_compute; reflexivity. Qed.

Example quiet_sketch_exits_0 :
  fst (evaluateP5Sketch quiet_world "a.html" initial)
    = Normal (mkResult true "No runtime errors detected." None) /\
  snd (main quiet_world (Some "a.html")) = 0%Z.
Proof. split; vm_compute; reflexivity. Qed.

Example empty_argument_exits_1 :
  main quiet_world (Some "") =
  ([console_error
      [LStr "Usage: node index.js <path/to/your/p5_sketch.html>"];
    process_exit 1], 1%Z).
Proof. reflexivity. Qed.

(** A launch that fails leaves nothing to close: one launch, no close. *)
Example launch_failure_closes_nothing :
  let s := snd (evaluateP5Sketch launch_fail_world "a.html" initial) in
  count is_launch (trace s) = 1 /\ count is_close (trace s) = 0
  /\ browser s = None.
Proof. vm_compute. repeat split. Qed.

(** A navigation that fails still closes the browser, once, and the page
    error seen during navigation is not part of the result. *)
Example navigation_failure_closes_once :
  let run := evaluateP5Sketch goto_fail_world "a.html" initial in
  fst run = Normal (failure_result boom)
  /\ errors (snd run) = [pageerror "boom" (Some "Error: boom at <anonymous>")]
  /\ count is_close (trace (snd run)) = 1.
Proof. vm_compute. repeat split. Qed.

(** * Further properties of the script *)

(** ** Helper facts *)

Lemma filter_events_output_nil (f : Effect -> bool) (evs : list PageEvent) :
  (forall e, is_listener_output e = true -> f e = false) ->
  filter f (events_output evs) = [].
Proof.
  intros Hf. apply length_zero_iff_nil.
  exact (count_listener_output f evs Hf).
Qed.

Lemma filter_report_log_nil (f : Effect -> bool) (l : list ErrorEntry) :
  (forall s, f (console_log [LStr s]) = false) ->
  filter f [report_log l] = [].
Proof. intros Hf. destruct l; simpl; now rewrite Hf. Qed.

Ltac filter_trace :=
  cbn [trace observed after attached_state read_state initial];
  rewrite ?filter_app;
  rewrite ?filter_events_output_nil by no_listener_output;
  rewrite ?filter_report_log_nil by reflexivity;
  reflexivity.

Lemma console_entries_in (evs : list PageEvent) (msg : ConsoleMessage) :
  In (EvConsole msg) evs -> reportable msg = true ->
  In (console_error_entry (msg_text msg)) (console_entries evs).
Proof.
  intros Hin Hr. unfold console_entries. apply in_flat_map.
  exists (EvConsole msg). split; [exact Hin|]. simpl. rewrite Hr. now left.
Qed.

Lemma page_entries_length (evs : list PageEvent) :
  List.length (page_entries evs)
  = List.length (filter is_page_error_event evs).
Proof.
  induction evs as [|[err|msg] evs IH]; simpl; [reflexivity| |]; now rewrite IH.
Qed.

Lemma console_entries_length (evs : list PageEvent) :
  List.length (console_entries evs)
  = List.length (filter is_reportable_event evs).
Proof.
  induction evs as [|[err|msg] evs IH]; simpl; [reflexivity|exact IH|].
  destruct (reportable msg); simpl; now rewrite IH.
Qed.

Lemma final_trace_filter (f : Effect -> bool) (w : World) (p : string) :
  (forall e, is_listener_output e = true -> f e = false) ->
  (forall s, f (console_log [LStr s]) = false) ->
  (forall args, f (console_error args) = false) ->
  filter f (trace (final_state w p)) =
  if fs_existsSync w p then
    filter f [puppeteer_launch true ["--no-sandbox"; "--disable-setuid-sandbox"]]
    ++ match launch w with
       | Rejected _ => []
       | Fulfilled _ =>
           filter f [browser_newPage]
           ++ match snd (newPage w) with
              | Rejected _ => []
              | Fulfilled _ =>
                  filter f (attach_then_goto (file_url w p))
                  ++ match snd (goto w (file_url w p) navigation_timeout) with
                     | Rejected _ => []
                     | Fulfilled _ => filter f [setTimeout observation_window]
                     end
              end
           ++ filter f [browser_close]
       end
  else [].
Proof.
  intros Hout Hlog Herr. unfold final_state, failure_log.
  destruct (fs_existsSync w p); [|simpl; now rewrite Herr].
  destruct (launch w) as [b|e].
  2: { cbn [trace found_trace]. rewrite filter_app. simpl.
       rewrite Hlog, Herr. now rewrite !app_nil_r. }
  destruct (snd (newPage w)) as [pg|e].
  2: { cbn [trace found_trace]. rewrite filter_app. simpl.
       rewrite Hlog, Herr.
       destruct (f (puppeteer_launch _ _)), (f browser_newPage),
         (f browser_close); reflexivity. }
  destruct (snd (goto w (file_url w p) navigation_timeout)) as [u|e];
    cbn [trace observed after attached_state read_state found_trace];
    rewrite !filter_app, !filter_events_output_nil by exact Hout.
  - replace (filter f [report_log (collected w (file_url w p))]) with
      (@nil Effect) by (destruct (collected w (file_url w p)); simpl;
                        now rewrite Hlog).
    simpl. rewrite Hlog. rewrite !app_nil_r.
    destruct (f (puppeteer_launch _ _)), (f browser_newPage),
      (f (page_on "pageerror" _)), (f (page_on "console" _)),
      (f (page_goto _ _ _)), (f (setTimeout _)), (f browser_close);
      reflexivity.
  - simpl. rewrite Hlog, Herr. rewrite !app_nil_r.
    destruct (f (puppeteer_launch _ _)), (f browser_newPage),
      (f (page_on "pageerror" _)), (f (page_on "console" _)),
      (f (page_goto _ _ _)), (f browser_close);
      reflexivity.
Qed.

(** ** Properties *)

(** X1: the result is fixed when the buffers are read.  Events that arrive
    later, while the browser closes, are still handled by the listeners but
    never change how the call completes. *)
Theorem late_events_do_not_change_result
    (w : World) (htmlFilePath : string) (late : list PageEvent) :
  fst (evaluateP5Sketch (with_close w (late, snd (close w)))
                        htmlFilePath initial)
  = fst (evaluateP5Sketch w htmlFilePath initial)
  /\ (reaches_report w htmlFilePath = true ->
      errors (snd (evaluateP5Sketch (with_close w (late, snd (close w)))
                                    htmlFilePath initial))
      = page_entries (window_events w (file_url w htmlFilePath))
          ++ page_entries late).
Proof.
  rewrite !run_spec. cbn [fst snd]. split; [reflexivity|].
  unfold reaches_report, session_failure, final_state.
  cbn [with_close fs_existsSync launch newPage goto close file_url
       path_resolve timer_events fst snd].
  destruct (fs_existsSync w htmlFilePath); [|discriminate].
  destruct (launch w); [|discriminate].
  destruct (snd (newPage w)); [|discriminate].
  fold (file_url w htmlFilePath).
  destruct (snd (goto w (file_url w htmlFilePath) navigation_timeout)) eqn:Hg;
    [|discriminate].
  intros _. unfold file_url at 1 2 3.
  cbn [with_close path_resolve goto]. fold (file_url w htmlFilePath).
  rewrite Hg. cbn [errors observed after].
  unfold read_state. cbn [errors observed after attached_state with_close
                          goto timer_events].
  unfold window_events, page_entries. now rewrite !flat_map_app.
Qed.

Lemma late_events_do_not_change_result_witness :
  reaches_report quiet_world "a.html" = true /\
  errors (snd (evaluateP5Sketch
                 (with_close quiet_world
                    ([EvPageError boom], snd (close quiet_world)))
                 "a.html" initial))
  = [pageerror "boom" (Some "Error: boom at <anonymous>")] /\
  fst (evaluateP5Sketch
         (with_close quiet_world ([EvPageError boom], snd (close quiet_world)))
         "a.html" initial)
  = Normal (mkResult true "No runtime errors detected." None).
Proof.
  split; [reflexivity|].
  destruct (late_events_do_not_change_result quiet_world "a.html"
              [EvPageError boom]) as [Hres Herrs].
  split; [rewrite (Herrs eq_refl); reflexivity|].
  rewrite Hres. vm_compute. reflexivity.
Defined.

(** X2: a console message whose severity is none of "error", "warning" and
    "log" (for instance "info" or "debug") is dropped without a trace: nothing
    is buffered and nothing is written. *)
Theorem other_severities_ignored (msg : ConsoleMessage) (s : State) :
  listeners s = both_listeners ->
  msg_type msg <> "error" ->
  msg_type msg <> "warning" ->
  msg_type msg <> "log" ->
  deliver (EvConsole msg) s = (Normal tt, s).
Proof.
  intros Hl He Hw Hg. rewrite (deliver_attached _ s Hl).
  unfold observed, page_entries, console_entries, events_output.
  cbn [flat_map page_entry console_entry event_output].
  unfold console_output, reportable.
  apply String.eqb_neq in He, Hw, Hg. rewrite He, Hw, Hg. cbn.
  rewrite !app_nil_r. now destruct s.
Qed.

Lemma other_severities_ignored_witness :
  deliver (EvConsole info_message) (attached_state BrowserHandle "file:///a")
  = (Normal tt, attached_state BrowserHandle "file:///a").
Proof.
  apply (other_severities_ignored info_message
           (attached_state BrowserHandle "file:///a"));
    [reflexivity | discriminate | discriminate | discriminate].
Defined.

(** X3: what a call does to the outside, in order.  Leaving the writing
    aside, the trace of every call is: nothing when the file is missing;
    otherwise the launch, then, when it succeeded, the page creation, then,
    when that succeeded, the two registrations and the navigation, then, when
    that succeeded, the single wait of 5000 ms; and last, whenever the launch
    succeeded, the close.  In particular a failed call never waits. *)
Theorem operations_in_order (w : World) (htmlFilePath : string) :
  filter is_operation
         (trace (snd (evaluateP5Sketch w htmlFilePath initial))) =
  if fs_existsSync w htmlFilePath then
    puppeteer_launch true ["--no-sandbox"; "--disable-setuid-sandbox"]
    :: match launch w with
       | Rejected _ => []
       | Fulfilled _ =>
           browser_newPage
           :: match snd (newPage w) with
              | Rejected _ => []
              | Fulfilled _ =>
                  attach_then_goto (file_url w htmlFilePath)
                  ++ match snd (goto w (file_url w htmlFilePath) 30000) with
                     | Rejected _ => []
                     | Fulfilled _ => [setTimeout 5000]
                     end
              end
           ++ [browser_close]
       end
  else [].
Proof.
  rewrite run_spec. cbn [snd].
  rewrite final_trace_filter;
    [| intros e He; destruct e; try reflexivity; discriminate He
     | reflexivity | reflexivity].
  reflexivity.
Qed.

(** X4: the call rejects only through [browser.close()]: it throws [e]
    exactly when the file exists, the launch succeeded and closing the
    browser rejected with [e].  Every other failure is turned into a
    result. *)
Theorem rejects_only_when_close_rejects
    (w : World) (htmlFilePath : string) (e : JsError) :
  fst (evaluateP5Sketch w htmlFilePath initial) = Throw e
  <-> fs_existsSync w htmlFilePath = true
      /\ is_fulfilled (launch w) = true
      /\ snd (close w) = Rejected e.
Proof.
  rewrite run_spec. cbn [fst]. unfold expected, closing.
  destruct (fs_existsSync w htmlFilePath).
  2: { split; [discriminate | intros [H _]; discriminate]. }
  destruct (launch w) as [b|e'].
  2: { split; [discriminate | intros [_ [H _]]; discriminate]. }
  destruct (session_failure w (file_url w htmlFilePath));
    destruct (snd (close w)) as [u|e'']; cbn [is_fulfilled];
    (split; [intros H; try discriminate; injection H as ->; auto
            | intros [_ [_ H]]; try discriminate; now injection H as ->]).
Qed.

(** X5: a result with [success = true] means a clean observation window: no
    uncaught page exception was delivered during the navigation or the wait,
    and every console message of severity "error" delivered then contained
    "Failed to load resource". *)
Theorem success_means_clean_window
    (w : World) (htmlFilePath : string) (r : Result) (s : State) :
  evaluateP5Sketch w htmlFilePath initial = (Normal r, s) ->
  success r = true ->
  let evs := window_events w (file_url w htmlFilePath) in
  reaches_report w htmlFilePath = true
  /\ (forall err, ~ In (EvPageError err) evs)
  /\ (forall msg, In (EvConsole msg) evs -> msg_type msg = "error" ->
                  contains (msg_text msg) "Failed to load resource").
Proof.
  intros Hrun Hs evs. rewrite run_spec in Hrun. injection Hrun as Hc _.
  unfold expected, closing in Hc. unfold reaches_report.
  destruct (fs_existsSync w htmlFilePath).
  2: { injection Hc as <-. discriminate Hs. }
  destruct (launch w) as [b|e].
  2: { injection Hc as <-. discriminate Hs. }
  destruct (session_failure w (file_url w htmlFilePath)) as [e|];
    (destruct (snd (close w)); [|discriminate]); injection Hc as <-;
    [discriminate Hs|].
  unfold collected in Hs. fold evs in Hs.
  destruct (page_entries evs ++ console_entries evs) eqn:E; [|discriminate Hs].
  apply app_eq_nil in E. destruct E as [Hp Hcn].
  split; [reflexivity|]. split.
  - intros err Hin. apply page_entries_in in Hin. rewrite Hp in Hin.
    contradiction.
  - intros msg Hin Hty. apply includes_iff.
    destruct (includes (msg_text msg) "Failed to load resource") eqn:Hi;
      [reflexivity|].
    assert (Hr : reportable msg = true).
    { unfold reportable, benign_marker. now rewrite Hty, Hi. }
    pose proof (console_entries_in evs msg Hin Hr) as H.
    rewrite Hcn in H. contradiction.
Qed.

Lemma success_means_clean_window_witness :
  exists r s,
    evaluateP5Sketch quiet_world "a.html" initial = (Normal r, s) /\
    success r = true /\
    reaches_report quiet_world "a.html" = true.
Proof.
  pose (run := evaluateP5Sketch quiet_world "a.html" initial).
  assert (Hrun : exists r s, run = (Normal r, s) /\ success r = true).
  { vm_compute. eexists; eexists. split; reflexivity. }
  destruct Hrun as [r [s [Hrun Hs]]]. exists r, s.
  split; [exact Hrun|]. split; [exact Hs|].
  destruct (success_means_clean_window quiet_world "a.html" r s Hrun Hs)
    as [H _].
  exact H.
Defined.

(** X6: nothing is merged or dropped when the report is built.  A result
    that reports runtime errors lists one entry per page error and one per
    console error without the benign marker delivered during the window
    (repeated events give repeated entries), and the progress line on
    standard output announces exactly that number. *)
Theorem reported_count_matches_events
    (w : World) (htmlFilePath : string) (r : Result) (s : State)
    (l : list ErrorEntry) :
  evaluateP5Sketch w htmlFilePath initial = (Normal r, s) ->
  r_message r = "Runtime errors detected." ->
  r_errors r = Some l ->
  let evs := window_events w (file_url w htmlFilePath) in
  List.length l = List.length (filter is_page_error_event evs)
                  + List.length (filter is_reportable_event evs)
  /\ In (console_log [LStr ("Evaluation complete: Found "
                            ++ string_of_nat (List.length l)
                            ++ " runtime errors.")])
        (trace s).
Proof.
  intros Hrun Hm Hl evs. rewrite run_spec in Hrun.
  injection Hrun as Hc <-. unfold expected, closing in Hc.
  unfold final_state, session_failure in *.
  destruct (fs_existsSync w htmlFilePath).
  2: { injection Hc as <-. discriminate Hm. }
  destruct (launch w) as [b|e].
  2: { injection Hc as <-. discriminate Hm. }
  destruct (snd (newPage w)) as [pg|e].
  2: { destruct (snd (close w)); [|discriminate].
       injection Hc as <-. discriminate Hm. }
  destruct (snd (goto w (file_url w htmlFilePath) navigation_timeout))
    as [u|e].
  2: { destruct (snd (close w)); [|discriminate].
       injection Hc as <-. discriminate Hm. }
  destruct (snd (close w)); [|discriminate]. injection Hc as <-.
  destruct (collected w (file_url w htmlFilePath)) as [|x l'] eqn:E;
    [discriminate Hm|].
  cbn [report r_errors] in Hl. injection Hl as <-. split.
  - rewrite <- E. unfold collected. fold evs.
    now rewrite length_app, page_entries_length, console_entries_length.
  - cbn [trace observed after report_log].
    apply in_or_app. left. apply in_or_app. left. apply in_or_app. right.
    now left.
Qed.

Lemma reported_count_matches_events_witness :
  exists r s l,
    evaluateP5Sketch noisy_world "a.html" initial = (Normal r, s) /\
    r_errors r = Some l /\
    List.length l = 3 /\
    In (console_log [LStr "Evaluation complete: Found 3 runtime errors."])
       (trace s).
Proof.
  pose (run := evaluateP5Sketch noisy_world "a.html" initial).
  assert (Hrun : exists r s l, run = (Normal r, s)
                 /\ r_message r = "Runtime errors detected."
                 /\ r_errors r = Some l /\ List.length l = 3).
  { vm_compute. do 3 eexists. repeat split; reflexivity. }
  destruct Hrun as [r [s [l [Hrun [Hm [Hl Hn]]]]]]. exists r, s, l.
  split; [exact Hrun|]. split; [exact Hl|]. split; [exact Hn|].
  destruct (reported_count_matches_events noisy_world "a.html" r s l
              Hrun Hm Hl) as [_ Hin].
  rewrite Hn in Hin. exact Hin.
Defined.

Lemma final_trace_nonempty (w : World) (p : string) :
  trace (final_state w p) <> [].
Proof.
  intros H. apply (f_equal (@List.length Effect)) in H. revert H.
  unfold final_state.
  destruct (fs_existsSync w p); [|discriminate].
  destruct (launch w); [|discriminate].
  destruct (snd (newPage w)); [|discriminate].
  destruct (snd (goto w _ _));
    cbn [trace observed after attached_state read_state found_trace];
    rewrite !length_app; cbn [List.length]; lia.
Qed.

(** X7: the usage path is taken exactly when there is no usable argument
    (none, or the empty string).  Then the process only prints the usage
    line and exits with code 1: the file system is not consulted and no
    browser is launched, whatever the world.  With any other argument the
    process writes something else. *)
Theorem usage_only_without_argument (w : World) (argv2 : option string) :
  main w argv2 = usage_run <-> falsy argv2 = true.
Proof.
  unfold main. destruct argv2 as [p|]; [|split; reflexivity].
  destruct (falsy (Some p)); [split; reflexivity|].
  split; [|discriminate]. rewrite run_spec.
  pose proof (final_trace_nonempty w p) as Hne.
  destruct (trace (final_state w p)) as [|x tr] eqn:E; [contradiction|].
  destruct (expected w p) as [r|e]; intros H;
    apply (f_equal (fun x => List.length (fst x))) in H;
    cbn [fst usage_run List.length] in H;
    rewrite length_app in H; cbn [List.length] in H; lia.
Qed.

(** X8: the process never exits before closing the browser it launched.
    The trace of the process ends with its only [process.exit]; before it
    there is at most one launch, and one [browser.close()] exactly when a
    browser was launched. *)
Theorem process_exits_after_close (w : World) (argv2 : option string) :
  exists tr,
    fst (main w argv2) = tr ++ [process_exit (snd (main w argv2))]
    /\ count is_exit tr = 0
    /\ count is_launch tr <= 1
    /\ count is_close tr = (if launched w argv2 then 1 else 0).
Proof.
  unfold main, launched. destruct argv2 as [p|].
  2: { eexists [_]. repeat split. cbn. lia. }
  destruct (falsy (Some p)).
  { eexists [_]. repeat split. cbn. lia. }
  rewrite run_spec. cbn [negb andb].
  assert (Hexit : count is_exit (trace (final_state w p)) = 0).
  { unfold count. rewrite final_trace_filter;
      [| no_listener_output | reflexivity | reflexivity].
    destruct (fs_existsSync w p); [|reflexivity].
    destruct (launch w); [|reflexivity].
    destruct (snd (newPage w)); [|reflexivity].
    destruct (snd (goto w _ _)); reflexivity. }
  pose proof (final_launch_count w p) as Hlaunch.
  pose proof (final_close_count w p) as Hclose.
  destruct (expected w p) as [r|e]; cbn [fst snd].
  - exists (trace (final_state w p)
            ++ [console_log [LStr (newline ++ "--- Final Evaluation Result ---")];
                console_log [LJson r]]).
    split; [now rewrite <- app_assoc|].
    rewrite !count_app, Hexit, Hlaunch, Hclose.
    repeat split; destruct (fs_existsSync w p); cbn; lia.
  - exists (trace (final_state w p)
            ++ [console_error [LStr "Unhandled error during evaluation:";
                               LErr e]]).
    split; [now rewrite <- app_assoc|].
    rewrite !count_app, Hexit, Hlaunch, Hclose.
    repeat split; destruct (fs_existsSync w p); cbn; lia.
Qed.

(** X9: the final JSON document on standard output is the returned result,
    printed once; when the call rejects, or no argument was given, no JSON
    document is printed. *)
Theorem json_result_printed_iff_returned (w : World) (argv2 : option string) :
  filter is_json_log (fst (main w argv2)) =
  match argv2 with
  | Some p =>
      if falsy argv2 then []
      else match fst (evaluateP5Sketch w p initial) with
           | Normal r => [console_log [LJson r]]
           | Throw _ => []
           end
  | None => []
  end.
Proof.
  unfold main. destruct argv2 as [p|]; [|reflexivity].
  destruct (falsy (Some p)); [reflexivity|].
  rewrite run_spec. cbn [fst].
  assert (Hnone : filter is_json_log (trace (final_state w p)) = []).
  { rewrite final_trace_filter;
      [| no_listener_output | reflexivity | reflexivity].
    destruct (fs_existsSync w p); [|reflexivity].
    destruct (launch w); [|reflexivity].
    destruct (snd (newPage w)); [|reflexivity].
    destruct (snd (goto w _ _)); reflexivity. }
  destruct (expected w p) as [r|e]; cbn [fst];
    rewrite filter_app, Hnone; reflexivity.
Qed.
